(** * secrets.example.h: the configuration header of the water sensor

    The repository holds one file, [secrets.example.h], a C preprocessor
    header made of comments, [#pragma once] and three object-like macro
    definitions.  This development embeds the text of the header, the
    part of the C preprocessor that gives it a meaning (splitting into
    lines, removal of [//] comments outside string literals, recognition
    of [#pragma once] and [#define], the macro table, inclusion), and
    proves the properties the specification states about it. *)

From Stdlib Require Import Ascii String List Bool Arith Lia.
From stdpp Require Import gmap strings.
Import ListNotations.

Local Open Scope string_scope.
Local Open Scope list_scope.

(* stdpp freezes string concatenation under [simpl]; the lexer proofs
   below compute through concrete prefixes of a line. *)
Local Arguments String.append !_ _ / : simpl nomatch.

(** ** Characters that cannot be written inside a string of this file *)

Module Chars.

Definition nl : ascii := "010"%char.
Definition tab : ascii := "009"%char.
Definition dquote : ascii := "034"%char.
Definition backslash : ascii := "092"%char.
Definition slash : ascii := "/"%char.
Definition cr : ascii := "013"%char.
Definition nul : ascii := "000"%char.

Definition is_space (c : ascii) : bool :=
  Ascii.eqb c " "%char || Ascii.eqb c tab.

Definition in_range (lo hi : ascii) (c : ascii) : bool :=
  (nat_of_ascii lo <=? nat_of_ascii c)%nat && (nat_of_ascii c <=? nat_of_ascii hi)%nat.

Definition is_digit (c : ascii) : bool := in_range "0" "9" c.

Definition is_ident_start (c : ascii) : bool :=
  in_range "a" "z" c || in_range "A" "Z" c || Ascii.eqb c "_"%char.

Definition is_ident_char (c : ascii) : bool := is_ident_start c || is_digit c.

(* The characters from the space to the tilde. *)
Definition is_printable (c : ascii) : bool := in_range " " "~" c.

Definition is_octal (c : ascii) : bool := in_range "0" "7" c.

Definition octal_value (c : ascii) : nat := nat_of_ascii c - 48.

(* The octal digit for the last three bits of [n]. *)
Definition octal_digit (n : nat) : ascii :=
  match n mod 8 with
  | 0 => "0" | 1 => "1" | 2 => "2" | 3 => "3"
  | 4 => "4" | 5 => "5" | 6 => "6" | _ => "7"
  end%char.

End Chars.
Import Chars.

(** ** The text of the header *)

(** [quoted s] is [s] between two double quotes, the way the header
    writes a macro's replacement text. *)
Definition quoted (s : string) : string :=
  String dquote (s +:+ String dquote EmptyString).

(** The eleven lines of [src/secrets.example.h], in order. *)
Definition header_lines : list string :=
  [ "// secrets.example.h";
    "// Copy to secrets.h and fill in your real credentials. Do NOT commit secrets.h to source control.";
    EmptyString;
    "#pragma once";
    EmptyString;
    "// Wi-Fi credentials";
    "#define WIFI_SSID " +:+ quoted "YOUR_WIFI_SSID";
    "#define WIFI_PASS " +:+ quoted "YOUR_WIFI_PASSWORD";
    EmptyString;
    "// Webhook URL to call when water is detected";
    "#define WEBHOOK_URL "
      +:+ quoted "https://maker.ifttt.com/trigger/water_detected/with/key/YOUR_IFTTT_KEY" ].

(** [unlines] joins lines with a newline between them (none after the
    last one: the header does not end in a newline). *)
Definition unlines (ls : list string) : string :=
  String.concat (String nl EmptyString) ls.

(** The file as a sequence of characters. *)
Definition secrets_example_h : string := unlines header_lines.

Definition header_name : string := "secrets.example.h".

(** The repository: file names with their contents. *)
Definition repository : list (string * string) :=
  [ (header_name, secrets_example_h) ].

(** ** Lexical structure *)

(** Physical lines of a text.  A line ends at a line feed, at a
    carriage return followed by a line feed, or at a carriage return
    alone; a final line end ends the last line and opens no new one. *)
Fixpoint lines_of (s : string) : list string :=
  match s with
  | EmptyString => []
  | String c r =>
      if Ascii.eqb c nl then EmptyString :: lines_of r
      else if Ascii.eqb c cr then
        EmptyString ::
          match r with
          | String c' r' => if Ascii.eqb c' nl then lines_of r' else lines_of r
          | EmptyString => []
          end
      else match lines_of r with
           | l :: ls => String c l :: ls
           | [] => [String c EmptyString]
           end
  end.

Fixpoint skip_spaces (s : string) : string :=
  match s with
  | EmptyString => EmptyString
  | String c r => if is_space c then skip_spaces r else s
  end.

Definition is_empty (s : string) : bool :=
  match s with EmptyString => true | String _ _ => false end.

Fixpoint rtrim (s : string) : string :=
  match s with
  | EmptyString => EmptyString
  | String c r =>
      let r' := rtrim r in
      if is_space c && is_empty r' then EmptyString else String c r'
  end.

(** Removal of a [//] comment from one line.  A [//] inside a string
    literal is text, not a comment: [in_str] tells whether the scan is
    inside a literal and [esc] whether the previous character was a
    backslash there. *)
Fixpoint strip_comment_aux (in_str esc : bool) (s : string) : string :=
  match s with
  | EmptyString => EmptyString
  | String c r =>
      if in_str then
        if esc then String c (strip_comment_aux true false r)
        else if Ascii.eqb c backslash then String c (strip_comment_aux true true r)
        else if Ascii.eqb c dquote then String c (strip_comment_aux false false r)
        else String c (strip_comment_aux true false r)
      else if Ascii.eqb c dquote then String c (strip_comment_aux true false r)
      else if Ascii.eqb c slash then
        match r with
        | String c' _ =>
            if Ascii.eqb c' slash then EmptyString
            else String c (strip_comment_aux false false r)
        | EmptyString => String c EmptyString
        end
      else String c (strip_comment_aux false false r)
  end.

Definition strip_comment (s : string) : string := strip_comment_aux false false s.

(** The longest identifier prefix of [s] and what follows it. *)
Fixpoint take_ident (s : string) : string * string :=
  match s with
  | EmptyString => (EmptyString, EmptyString)
  | String c r =>
      if is_ident_char c then
        let (i, rest) := take_ident r in (String c i, rest)
      else (EmptyString, s)
  end.

Definition starts_with_digit (s : string) : bool :=
  match s with String c _ => is_digit c | EmptyString => false end.

(** ** Lines of a header, classified *)

Inductive directive : Type :=
| Blank
| Comment (text : string)
| PragmaOnce
| Define (name body : string)
| Unsupported (text : string)
| Code (text : string).

(** What follows [#define]: a macro name, then its replacement text.  A
    name followed at once by a parenthesis opens a function-like macro,
    which this model does not interpret. *)
Definition classify_define (line rest : string) : directive :=
  let (name, body) := take_ident (skip_spaces rest) in
  if is_empty name || starts_with_digit name then Unsupported line
  else match body with
       | String "("%char _ => Unsupported line
       | _ => Define name (skip_spaces body)
       end.

Definition classify_directive (line after_hash : string) : directive :=
  let (kw, rest) := take_ident (skip_spaces after_hash) in
  if String.eqb kw "pragma" then
    if String.eqb (skip_spaces rest) "once" then PragmaOnce else Unsupported line
  else if String.eqb kw "define" then classify_define line rest
  else Unsupported line.

Definition classify (line : string) : directive :=
  let s := rtrim (skip_spaces (strip_comment line)) in
  match s with
  | EmptyString =>
      let raw := skip_spaces line in
      if is_empty raw then Blank else Comment raw
  | String c r =>
      if Ascii.eqb c "#"%char then classify_directive s r else Code s
  end.

Definition parse_file (text : string) : list directive :=
  map classify (lines_of text).

(** ** String literals *)

(** The character a simple escape sequence stands for. *)
Definition simple_escape (c : ascii) : option ascii :=
  if Ascii.eqb c dquote || Ascii.eqb c backslash
     || Ascii.eqb c "?"%char || Ascii.eqb c "'"%char then Some c
  else if Ascii.eqb c "n"%char then Some nl
  else if Ascii.eqb c "r"%char then Some cr
  else if Ascii.eqb c "t"%char then Some tab
  else if Ascii.eqb c "a"%char then Some "007"%char
  else if Ascii.eqb c "b"%char then Some "008"%char
  else if Ascii.eqb c "f"%char then Some "012"%char
  else if Ascii.eqb c "v"%char then Some "011"%char
  else None.

(** Where the reader of a literal stands: in plain text, after a
    backslash, or inside an octal escape that may take [more] digits
    and has the value [acc] so far. *)
Inductive lit_state : Type :=
| Plain
| Escaped
| Octal (more acc : nat).

(** The character of a finished octal escape, which must fit a byte. *)
Definition emit_octal (acc : nat) (rest : option string) : option string :=
  if (acc <? 256)%nat then String (ascii_of_nat acc) <$> rest else None.

(** The characters of a literal after its opening quote, decoded up to
    the closing quote, which must end the replacement text.  The escape
    sequences understood are the simple ones and the octal ones of one
    to three digits; a hexadecimal or universal-character escape makes
    the text unreadable for this reader. *)
Fixpoint literal_chars (st : lit_state) (s : string) : option string :=
  match s with
  | EmptyString => None
  | String c r =>
      match st with
      | Plain =>
          if Ascii.eqb c backslash then literal_chars Escaped r
          else if Ascii.eqb c dquote
          then (if is_empty r then Some EmptyString else None)
          else String c <$> literal_chars Plain r
      | Escaped =>
          if is_octal c then literal_chars (Octal 2 (octal_value c)) r
          else match simple_escape c with
               | Some d => String d <$> literal_chars Plain r
               | None => None
               end
      | Octal more acc =>
          if (0 <? more)%nat && is_octal c
          then literal_chars (Octal (more - 1) (8 * acc + octal_value c)) r
          else emit_octal acc
                 (if Ascii.eqb c backslash then literal_chars Escaped r
                  else if Ascii.eqb c dquote
                  then (if is_empty r then Some EmptyString else None)
                  else String c <$> literal_chars Plain r)
      end
  end.

(** [string_literal body] is the value of [body] when [body] is one
    string literal and nothing else. *)
Definition string_literal (body : string) : option string :=
  match body with
  | String c r => if Ascii.eqb c dquote then literal_chars Plain r else None
  | EmptyString => None
  end.

(** A character as a backslash and three octal digits. *)
Definition octal_escape (c : ascii) : string :=
  let n := nat_of_ascii c in
  String backslash
    (String (octal_digit (n / 64))
       (String (octal_digit (n / 8))
          (String (octal_digit n) EmptyString))).

(** Writing a value as a literal, the inverse of [string_literal]: the
    quote, the backslash and the question mark behind a backslash, the
    other printable characters as they are, and every other character,
    line ends included, as an octal escape.  The text written holds
    printable characters only. *)
Fixpoint escape (s : string) : string :=
  match s with
  | EmptyString => EmptyString
  | String c r =>
      if Ascii.eqb c dquote || Ascii.eqb c backslash || Ascii.eqb c "?"%char
      then String backslash (String c (escape r))
      else if is_printable c then String c (escape r)
      else octal_escape c +:+ escape r
  end.

Definition render_literal (v : string) : string := quoted (escape v).

(** ** The preprocessor *)

Record pp_state : Type := PPState {
  macros : gmap string string;   (* macro name to replacement text *)
  once_files : gset string;      (* files that said [#pragma once] *)
  output : list string           (* lines handed on to the compiler *)
}.

Definition pp_init : pp_state :=
  {| macros := ∅; once_files := ∅; output := [] |}.

Definition subst_ident (m : gmap string string) (id : string) : string :=
  if is_empty id then EmptyString else default id (m !! id).

(** One pass of object-like macro replacement over a line of code:
    identifiers outside string literals are looked up in the table.
    The replacement text is not scanned again. *)
Fixpoint expand_aux (m : gmap string string) (in_str esc : bool)
    (cur : string) (s : string) : string :=
  match s with
  | EmptyString => subst_ident m cur
  | String c r =>
      if in_str then
        String c (expand_aux m (esc || negb (Ascii.eqb c dquote))
                    (negb esc && Ascii.eqb c backslash) EmptyString r)
      else if is_ident_char c then
        expand_aux m false false (cur +:+ String c EmptyString) r
      else
        subst_ident m cur
          +:+ String c (expand_aux m (Ascii.eqb c dquote) false EmptyString r)
  end.

Definition expand_line (m : gmap string string) (s : string) : string :=
  expand_aux m false false EmptyString s.

(** The effect of one line of [file].  A [#define] of a name already in
    the table replaces its text (a compiler warns there and goes on).
    Directives outside the model make the run fail rather than being
    passed over. *)
Definition exec_directive (file : string) (d : directive) (st : pp_state)
    : option pp_state :=
  match d with
  | Blank | Comment _ => Some st
  | PragmaOnce =>
      Some {| macros := macros st;
              once_files := {[ file ]} ∪ once_files st;
              output := output st |}
  | Define name body =>
      Some {| macros := <[ name := body ]> (macros st);
              once_files := once_files st;
              output := output st |}
  | Unsupported _ => None
  | Code text =>
      Some {| macros := macros st;
              once_files := once_files st;
              output := output st ++ [expand_line (macros st) text] |}
  end.

Fixpoint exec_directives (file : string) (ds : list directive) (st : pp_state)
    : option pp_state :=
  match ds with
  | [] => Some st
  | d :: ds' => st' ← exec_directive file d st; exec_directives file ds' st'
  end.

(** [#include] of the file [name] with contents [text]: skipped when the
    file has already declared itself once-only. *)
Definition include_file (name text : string) (st : pp_state) : option pp_state :=
  if decide (name ∈ once_files st) then Some st
  else exec_directives name (parse_file text) st.

Definition include_header (st : pp_state) : option pp_state :=
  include_file header_name secrets_example_h st.


(** ** What the header defines *)

(** The [#define] lines of a file, in order, duplicates kept. *)
Definition defines_of (ds : list directive) : list (string * string) :=
  omap (fun d => match d with Define n b => Some (n, b) | _ => None end) ds.

(** The lines that survive preprocessing as code. *)
Definition code_of (ds : list directive) : list string :=
  omap (fun d => match d with Code t => Some t | _ => None end) ds.

Definition constant_names : list string :=
  [ "WIFI_SSID"; "WIFI_PASS"; "WEBHOOK_URL" ].

(** The value a translation unit sees under [name] after including the
    file [text] and nothing else: the macro must exist and its
    replacement text must be a string literal. *)
Definition constant_value (text name : string) : option string :=
  st ← include_file header_name text pp_init;
  body ← macros st !! name;
  string_literal body.

(** A program run as a fold of a step function over the code lines of a
    translation unit. *)
Definition run_program {St : Type} (step : string -> St -> St)
    (code : list string) (s : St) : St :=
  fold_left (fun acc line => step line acc) code s.

(** The header, line by line, as the preprocessor reads it. *)
Definition header_directives : list directive :=
  [ Comment "// secrets.example.h";
    Comment "// Copy to secrets.h and fill in your real credentials. Do NOT commit secrets.h to source control.";
    Blank;
    PragmaOnce;
    Blank;
    Comment "// Wi-Fi credentials";
    Define "WIFI_SSID" (quoted "YOUR_WIFI_SSID");
    Define "WIFI_PASS" (quoted "YOUR_WIFI_PASSWORD");
    Blank;
    Comment "// Webhook URL to call when water is detected";
    Define "WEBHOOK_URL"
      (quoted "https://maker.ifttt.com/trigger/water_detected/with/key/YOUR_IFTTT_KEY") ].

(** The macros the header adds to a table. *)
Definition header_macros (m : gmap string string) : gmap string string :=
  <[ "WEBHOOK_URL" :=
       quoted "https://maker.ifttt.com/trigger/water_detected/with/key/YOUR_IFTTT_KEY" ]>
    (<[ "WIFI_PASS" := quoted "YOUR_WIFI_PASSWORD" ]>
       (<[ "WIFI_SSID" := quoted "YOUR_WIFI_SSID" ]> m)).

(** The configuration a program built against the header reads. *)
Record config : Type := Config {
  wifi_ssid : string;
  wifi_pass : string;
  webhook_url : string
}.

Definition config_of (text : string) : option config :=
  s ← constant_value text "WIFI_SSID";
  p ← constant_value text "WIFI_PASS";
  u ← constant_value text "WEBHOOK_URL";
  Some {| wifi_ssid := s; wifi_pass := p; webhook_url := u |}.

Definition nonempty (s : string) : bool := negb (is_empty s).

(** Every constant's value is a non-empty string. *)
Definition config_filled (c : config) : bool :=
  nonempty (wifi_ssid c) && nonempty (wifi_pass c) && nonempty (webhook_url c).

(** ** Editing a copy of the header *)

(** The line that defines [name] as the literal for [value]. *)
Definition define_line (name value : string) : string :=
  "#define " +:+ name +:+ " " +:+ render_literal value.

Definition set_literal_line (name value line : string) : string :=
  match classify line with
  | Define n _ => if String.eqb n name then define_line name value else line
  | _ => line
  end.

(** [set_literal name value text] is [text] with the literal of every
    definition of [name] replaced by the literal for [value]. *)
Definition set_literal (name value text : string) : string :=
  unlines (map (set_literal_line name value) (lines_of text)).

(** The same edit on a classified line. *)
Definition replace_define (name body : string) (d : directive) : directive :=
  match d with
  | Define n _ => if String.eqb n name then Define name body else d
  | _ => d
  end.

(** ** Tests on strings *)

Fixpoint has_char (c : ascii) (s : string) : bool :=
  match s with
  | EmptyString => false
  | String a r => Ascii.eqb a c || has_char c r
  end.

(** A text that fits one line: no line feed and no carriage return. *)
Definition one_line (s : string) : bool :=
  negb (has_char nl s) && negb (has_char cr s).

(** [contains sub s]: [sub] occurs in [s]. *)
Fixpoint contains (sub s : string) : bool :=
  String.prefix sub s ||
  match s with
  | EmptyString => false
  | String _ r => contains sub r
  end.

(** [drop_prefix p s] is what follows [p] in [s], when [s] starts with [p]. *)
Fixpoint drop_prefix (p s : string) : option string :=
  match p, s with
  | EmptyString, _ => Some s
  | String a p', String b s' => if Ascii.eqb a b then drop_prefix p' s' else None
  | String _ _, EmptyString => None
  end.

(** The characters of [s] before the first [c]. *)
Fixpoint take_until (c : ascii) (s : string) : string :=
  match s with
  | EmptyString => EmptyString
  | String a r => if Ascii.eqb a c then EmptyString else String a (take_until c r)
  end.

Definition ifttt_trigger_prefix : string := "https://maker.ifttt.com/trigger/".

(** The event an IFTTT webhook URL triggers: the path segment after
    [/trigger/]. *)
Definition trigger_name (url : string) : option string :=
  take_until slash <$> drop_prefix ifttt_trigger_prefix url.

Definition is_comment (d : directive) : bool :=
  match d with Comment _ => true | _ => false end.
Definition is_blank (d : directive) : bool :=
  match d with Blank => true | _ => false end.
Definition is_guard (d : directive) : bool :=
  match d with PragmaOnce => true | _ => false end.
Definition is_constant_define (d : directive) : bool :=
  match d with
  | Define n b => bool_decide (n ∈ constant_names) && bool_decide (is_Some (string_literal b))
  | _ => false
  end.

(** ** Filling in the template *)

(** The copy the second line of the header asks for: the header with
    the three literals replaced by the user's values. *)
Definition fill_in (ssid pass url : string) : string :=
  set_literal "WEBHOOK_URL" url
    (set_literal "WIFI_PASS" pass
       (set_literal "WIFI_SSID" ssid secrets_example_h)).

(** The lines of a filled-in copy, as the preprocessor reads them. *)
Definition filled_directives (ssid pass url : string) : list directive :=
  [ Comment "// secrets.example.h";
    Comment "// Copy to secrets.h and fill in your real credentials. Do NOT commit secrets.h to source control.";
    Blank;
    PragmaOnce;
    Blank;
    Comment "// Wi-Fi credentials";
    Define "WIFI_SSID" (render_literal ssid);
    Define "WIFI_PASS" (render_literal pass);
    Blank;
    Comment "// Webhook URL to call when water is detected";
    Define "WEBHOOK_URL" (render_literal url) ].


(** ** Translation units *)

(** What a file that uses the header is made of: inclusions of the
    header and lines of its own. *)
Inductive unit_item : Type :=
| IncludeHeader
| OwnLine (line : string).

(** One item of the file [main], which includes the text [hdr] under
    the file name [name]. *)
Definition run_item (main name hdr : string) (it : unit_item) (st : pp_state)
    : option pp_state :=
  match it with
  | IncludeHeader => include_file name hdr st
  | OwnLine l => exec_directive main (classify l) st
  end.

Fixpoint run_unit (main name hdr : string) (items : list unit_item)
    (st : pp_state) : option pp_state :=
  match items with
  | [] => Some st
  | it :: rest => st' ← run_item main name hdr it st; run_unit main name hdr rest st'
  end.

Definition is_include (it : unit_item) : bool :=
  match it with IncludeHeader => true | OwnLine _ => false end.

(** A unit without its inclusions of the header. *)
Definition drop_includes (items : list unit_item) : list unit_item :=
  List.filter (fun it => negb (is_include it)) items.

(** The header with its [#pragma once] line taken out. *)
Definition header_without_guard : string :=
  unlines (List.filter (fun l => negb (String.eqb l "#pragma once")) header_lines).

(** A text whose last line is not empty. *)
Definition ends_in_line (text : string) : bool :=
  negb (is_empty (List.last (lines_of text) EmptyString)).

(** * Properties *)

(** ** Lines and joins *)

Section Lexing.

Lemma append_assoc (a b c : string) : (a +:+ b) +:+ c = a +:+ (b +:+ c).
Proof. induction a as [|x a IH]; simpl; [reflexivity | now rewrite IH]. Qed.

Lemma has_char_app (c : ascii) (a b : string) :
  has_char c (a +:+ b) = has_char c a || has_char c b.
Proof.
  induction a as [|x a IH]; simpl; [reflexivity|].
  rewrite IH. now rewrite orb_assoc.
Qed.

Lemma one_line_app (a b : string) :
  one_line (a +:+ b) = one_line a && one_line b.
Proof.
  unfold one_line. rewrite !has_char_app.
  destruct (has_char nl a), (has_char cr a), (has_char nl b), (has_char cr b);
    reflexivity.
Qed.

Lemma one_line_cons (c : ascii) (l : string) :
  one_line (String c l) = true ->
  Ascii.eqb c nl = false /\ Ascii.eqb c cr = false /\ one_line l = true.
Proof.
  unfold one_line. simpl. intros H.
  destruct (Ascii.eqb c nl), (Ascii.eqb c cr); simpl in H;
    rewrite ?andb_false_r in H; try discriminate H; auto.
Qed.

(** A line, followed by a line feed, is the first line. *)
Lemma lines_of_line_nl (l r : string) :
  one_line l = true ->
  lines_of (l +:+ String nl r) = l :: lines_of r.
Proof.
  induction l as [|c l IH]; intros H.
  - reflexivity.
  - apply one_line_cons in H as (Hn & Hc & Hl).
    simpl. rewrite Hn, Hc, (IH Hl). reflexivity.
Qed.

Lemma lines_of_last_line (l : string) :
  one_line l = true -> is_empty l = false -> lines_of l = [l].
Proof.
  induction l as [|c l IH]; intros H E; [discriminate|].
  apply one_line_cons in H as (Hn & Hc & Hl).
  simpl. rewrite Hn, Hc.
  destruct l as [|d l'].
  - reflexivity.
  - rewrite (IH Hl eq_refl). reflexivity.
Qed.

(** The lines of a join are the joined lines, provided each fits one
    line and the last one is not empty. *)
Lemma lines_of_unlines (ls : list string) :
  forallb one_line ls = true ->
  is_empty (List.last ls EmptyString) = false ->
  lines_of (unlines ls) = ls.
Proof.
  induction ls as [|l ls IH]; intros Hn Hl.
  - discriminate.
  - apply andb_true_iff in Hn as [Hnl Hn].
    destruct ls as [|l' ls'].
    + simpl in *. now apply lines_of_last_line.
    + change (unlines (l :: l' :: ls'))
        with (l +:+ String nl (unlines (l' :: ls'))).
      rewrite (lines_of_line_nl _ _ Hnl), IH; auto.
Qed.

(** No line of a text holds a line end. *)
Lemma lines_of_one_line (text : string) :
  forallb one_line (lines_of text) = true.
Proof.
  induction text as [|c r IH]; [reflexivity|].
  simpl. destruct (Ascii.eqb c nl) eqn:En; [exact IH|].
  destruct (Ascii.eqb c cr) eqn:Ec.
  - destruct r as [|c' r']; [reflexivity|].
    simpl in IH |- *. destruct (Ascii.eqb c' nl); exact IH.
  - destruct (lines_of r) as [|l ls]; simpl in *.
    + unfold one_line. simpl. now rewrite En, Ec.
    + apply andb_true_iff in IH as [Hl Hls]. rewrite Hls, andb_true_r.
      unfold one_line in *. simpl. now rewrite En, Ec.
Qed.

(** Trailing blanks are all that [rtrim] removes. *)
Lemma rtrim_snoc (s : string) (c : ascii) :
  is_space c = false ->
  rtrim (s +:+ String c EmptyString) = s +:+ String c EmptyString.
Proof.
  intros Hc. induction s as [|a s IH]; simpl.
  - now rewrite Hc.
  - rewrite IH. destruct s; simpl; now rewrite andb_false_r.
Qed.

Lemma quoted_snoc (p v : string) :
  p +:+ quoted v = (p +:+ String dquote v) +:+ String dquote EmptyString.
Proof. unfold quoted. rewrite append_assoc. reflexivity. Qed.

Lemma rtrim_quoted (p v : string) : rtrim (p +:+ quoted v) = p +:+ quoted v.
Proof. rewrite quoted_snoc. now apply rtrim_snoc. Qed.

(** ** Octal escapes *)

(* What the reader and the comment scanner need to know of a digit
   that [octal_digit] writes. *)
Lemma octal_digit_facts (n : nat) :
  is_octal (octal_digit n) = true
  /\ octal_value (octal_digit n) = n mod 8
  /\ Ascii.eqb (octal_digit n) dquote = false
  /\ Ascii.eqb (octal_digit n) backslash = false
  /\ Ascii.eqb (octal_digit n) nl = false
  /\ Ascii.eqb (octal_digit n) cr = false.
Proof.
  unfold octal_digit.
  pose proof (Nat.mod_upper_bound n 8 ltac:(lia)) as B.
  destruct (n mod 8) as [|[|[|[|[|[|[|[|k]]]]]]]];
    try (repeat split; reflexivity).
  lia.
Qed.

Lemma literal_chars_octal_done (acc : nat) (s : string) :
  literal_chars (Octal 0 acc) s = emit_octal acc (literal_chars Plain s).
Proof.
  destruct s as [|c r]; simpl.
  - unfold emit_octal. now destruct (acc <? 256)%nat.
  - reflexivity.
Qed.

(** The three digits of a byte give the byte back. *)
Lemma octal_digits_value (n : nat) :
  n < 256 ->
  8 * (8 * ((n / 64) mod 8) + (n / 8) mod 8) + n mod 8 = n.
Proof.
  intros H.
  assert (E : n / 64 = n / 8 / 8) by (rewrite Nat.Div0.div_div; reflexivity).
  pose proof (Nat.div_mod_eq n 8). pose proof (Nat.div_mod_eq (n / 8) 8).
  assert (n / 8 / 8 < 8) by (apply Nat.Div0.div_lt_upper_bound; apply Nat.Div0.div_lt_upper_bound; lia).
  rewrite E. rewrite (Nat.mod_small (n / 8 / 8) 8) by assumption. lia.
Qed.

(** Reading an octal escape gives the character it was written for. *)
Lemma literal_chars_octal_escape (c : ascii) (s : string) :
  literal_chars Plain (octal_escape c +:+ s) = String c <$> literal_chars Plain s.
Proof.
  unfold octal_escape.
  set (n := nat_of_ascii c).
  destruct (octal_digit_facts (n / 64)) as (O2 & V2 & _).
  destruct (octal_digit_facts (n / 8)) as (O1 & V1 & _).
  destruct (octal_digit_facts n) as (O0 & V0 & _).
  cbn [String.append literal_chars].
  change (Ascii.eqb backslash backslash) with true. cbn iota.
  rewrite O2. cbn [Nat.ltb Nat.leb andb Nat.sub].
  rewrite O1. cbn [Nat.ltb Nat.leb andb Nat.sub].
  rewrite O0. cbn [Nat.ltb Nat.leb andb Nat.sub].
  rewrite literal_chars_octal_done, V2, V1, V0.
  rewrite octal_digits_value by apply nat_ascii_bounded.
  unfold emit_octal.
  pose proof (nat_ascii_bounded c) as B. fold n in B.
  apply Nat.ltb_lt in B. rewrite B.
  unfold n. now rewrite ascii_nat_embedding.
Qed.

Lemma strip_comment_octal_escape (c : ascii) (s : string) :
  strip_comment_aux true false (octal_escape c +:+ s)
  = octal_escape c +:+ strip_comment_aux true false s.
Proof.
  unfold octal_escape.
  set (n := nat_of_ascii c).
  destruct (octal_digit_facts (n / 8)) as (_ & _ & Q1 & B1 & _).
  destruct (octal_digit_facts n) as (_ & _ & Q0 & B0 & _).
  cbn [String.append strip_comment_aux].
  change (Ascii.eqb backslash backslash) with true. cbn iota.
  now rewrite B1, Q1, B0, Q0.
Qed.

Lemma one_line_octal_escape (c : ascii) : one_line (octal_escape c) = true.
Proof.
  unfold octal_escape, one_line. cbn [has_char].
  destruct (octal_digit_facts (nat_of_ascii c / 64)) as (_ & _ & _ & _ & N2 & C2).
  destruct (octal_digit_facts (nat_of_ascii c / 8)) as (_ & _ & _ & _ & N1 & C1).
  destruct (octal_digit_facts (nat_of_ascii c)) as (_ & _ & _ & _ & N0 & C0).
  rewrite N2, C2, N1, C1, N0, C0. reflexivity.
Qed.

(** ** Literals written by [render_literal] *)

(* The three characters written behind a backslash. *)
Lemma special_cases (c : ascii) :
  Ascii.eqb c dquote || Ascii.eqb c backslash || Ascii.eqb c "?"%char = true ->
  c = dquote \/ c = backslash \/ c = "?"%char.
Proof.
  intros H. apply orb_true_iff in H as [H|H]; [apply orb_true_iff in H as [H|H]|];
    apply Ascii.eqb_eq in H; auto.
Qed.

Lemma not_special (c : ascii) :
  Ascii.eqb c dquote || Ascii.eqb c backslash || Ascii.eqb c "?"%char = false ->
  Ascii.eqb c dquote = false /\ Ascii.eqb c backslash = false.
Proof.
  intros H. apply orb_false_iff in H as [H _]. now apply orb_false_iff in H.
Qed.

Lemma printable_not_eol (c : ascii) :
  is_printable c = true -> Ascii.eqb c nl = false /\ Ascii.eqb c cr = false.
Proof.
  intros H. split.
  - destruct (Ascii.eqb c nl) eqn:E; [|reflexivity].
    apply Ascii.eqb_eq in E. subst c. discriminate H.
  - destruct (Ascii.eqb c cr) eqn:E; [|reflexivity].
    apply Ascii.eqb_eq in E. subst c. discriminate H.
Qed.

Lemma literal_chars_escape (v : string) :
  literal_chars Plain (escape v +:+ String dquote EmptyString) = Some v.
Proof.
  induction v as [|c v IH]; [reflexivity|].
  cbn [escape].
  destruct (Ascii.eqb c dquote || Ascii.eqb c backslash || Ascii.eqb c "?"%char) eqn:S.
  - destruct (special_cases c S) as [->|[->| ->]];
      cbn [String.append]; simpl; now rewrite IH.
  - destruct (not_special c S) as (Hq & Hb).
    destruct (is_printable c).
    + cbn [String.append literal_chars]. now rewrite Hb, Hq, IH.
    + now rewrite append_assoc, literal_chars_octal_escape, IH.
Qed.

(** Reading back a rendered literal gives the value it was rendered from. *)
Lemma string_literal_render (v : string) : string_literal (render_literal v) = Some v.
Proof. unfold render_literal, quoted. simpl. apply literal_chars_escape. Qed.

(** Inside a literal nothing is a comment. *)
Lemma strip_comment_escape (v r : string) :
  strip_comment_aux true false (escape v +:+ String dquote r)
  = escape v +:+ String dquote (strip_comment_aux false false r).
Proof.
  induction v as [|c v IH]; [reflexivity|].
  cbn [escape].
  destruct (Ascii.eqb c dquote || Ascii.eqb c backslash || Ascii.eqb c "?"%char) eqn:S.
  - cbn [String.append strip_comment_aux].
    change (Ascii.eqb backslash backslash) with true. cbn iota.
    now rewrite IH.
  - destruct (not_special c S) as (Hq & Hb).
    destruct (is_printable c).
    + cbn [String.append strip_comment_aux]. now rewrite Hb, Hq, IH.
    + now rewrite !append_assoc, strip_comment_octal_escape, IH.
Qed.

Lemma strip_comment_render (v : string) :
  strip_comment_aux false false (render_literal v) = render_literal v.
Proof. unfold render_literal, quoted. simpl. now rewrite strip_comment_escape. Qed.

(** Before the literal, a prefix free of quotes and slashes is kept. *)
Lemma strip_comment_plain_prefix (p r : string) :
  has_char dquote p = false -> has_char slash p = false ->
  strip_comment_aux false false (p +:+ r) = p +:+ strip_comment_aux false false r.
Proof.
  induction p as [|c p IH]; simpl; intros Hq Hs; [reflexivity|].
  apply orb_false_iff in Hq as [Hq Hq'], Hs as [Hs Hs'].
  rewrite Hq, Hs, IH; auto.
Qed.

(** A rendered literal fits one line, whatever the value holds. *)
Lemma escape_one_line (v : string) : one_line (escape v) = true.
Proof.
  induction v as [|c v IH]; [reflexivity|].
  cbn [escape].
  destruct (Ascii.eqb c dquote || Ascii.eqb c backslash || Ascii.eqb c "?"%char) eqn:S.
  - change (String backslash (String c (escape v)))
      with (String backslash (String c EmptyString) +:+ escape v).
    rewrite one_line_app, IH, andb_true_r.
    destruct (special_cases c S) as [->|[->| ->]]; reflexivity.
  - destruct (is_printable c) eqn:P.
    + destruct (printable_not_eol c P) as (Hn & Hc).
      change (String c (escape v)) with (String c EmptyString +:+ escape v).
      rewrite one_line_app, IH, andb_true_r.
      unfold one_line. simpl. now rewrite Hn, Hc.
    + now rewrite one_line_app, one_line_octal_escape, IH.
Qed.

Lemma render_one_line (v : string) : one_line (render_literal v) = true.
Proof.
  unfold render_literal, quoted.
  change (String dquote (escape v +:+ String dquote EmptyString))
    with (String dquote EmptyString +:+ (escape v +:+ String dquote EmptyString)).
  now rewrite !one_line_app, escape_one_line.
Qed.

End Lexing.

(** ** The header as the preprocessor reads it *)

Section Header.

Lemma lines_of_header : lines_of secrets_example_h = header_lines.
Proof. vm_compute. reflexivity. Qed.

Lemma parse_header : parse_file secrets_example_h = header_directives.
Proof. vm_compute. reflexivity. Qed.

(** Running the lines of the header: three macros enter the table, the
    file is marked once-only, and no line of code is produced. *)
Lemma exec_header (file : string) (st : pp_state) :
  exec_directives file header_directives st
  = Some {| macros := header_macros (macros st);
            once_files := {[ file ]} ∪ once_files st;
            output := output st |}.
Proof. reflexivity. Qed.

Lemma include_header_fresh (st : pp_state) :
  header_name ∉ once_files st ->
  include_header st
  = Some {| macros := header_macros (macros st);
            once_files := {[ header_name ]} ∪ once_files st;
            output := output st |}.
Proof.
  intros H. unfold include_header, include_file.
  rewrite decide_False by exact H.
  rewrite parse_header. apply exec_header.
Qed.

Lemma include_header_marked (st : pp_state) :
  header_name ∈ once_files st -> include_header st = Some st.
Proof.
  intros H. unfold include_header, include_file. now rewrite decide_True.
Qed.

Lemma include_header_init :
  include_header pp_init
  = Some {| macros := header_macros ∅;
            once_files := {[ header_name ]} ∪ ∅;
            output := [] |}.
Proof. apply include_header_fresh. set_solver. Qed.



End Header.

(** ** Editing the literal of one constant *)

Section Editing.

Lemma set_literal_line_cases (n v l : string) :
  set_literal_line n v l = l \/ set_literal_line n v l = define_line n v.
Proof.
  unfold set_literal_line. destruct (classify l); auto.
  destruct (String.eqb _ _); auto.
Qed.

(* A [#define] line written for one of the three names reads back as
   the definition of that name. *)
Ltac classify_written N P v :=
  change (classify (P +:+ render_literal v) = Define N (render_literal v));
  unfold classify, strip_comment;
  rewrite (strip_comment_plain_prefix P) by reflexivity;
  rewrite strip_comment_render;
  change (skip_spaces (P +:+ render_literal v)) with (P +:+ render_literal v);
  unfold render_literal; rewrite rtrim_quoted;
  reflexivity.

Lemma classify_define_line (n v : string) :
  In n constant_names -> classify (define_line n v) = Define n (render_literal v).
Proof.
  intros [<-|[<-|[<-|[]]]].
  - classify_written "WIFI_SSID" "#define WIFI_SSID " v.
  - classify_written "WIFI_PASS" "#define WIFI_PASS " v.
  - classify_written "WEBHOOK_URL" "#define WEBHOOK_URL " v.
Qed.

Lemma define_line_one_line (n v : string) :
  In n constant_names -> one_line (define_line n v) = true.
Proof.
  intros H. unfold define_line.
  rewrite !one_line_app, render_one_line.
  destruct H as [<-|[<-|[<-|[]]]]; reflexivity.
Qed.

Lemma classify_set_literal_line (n v l : string) :
  In n constant_names ->
  classify (set_literal_line n v l) = replace_define n (render_literal v) (classify l).
Proof.
  intros H. unfold set_literal_line.
  destruct (classify l) eqn:E; simpl; try exact E.
  destruct (String.eqb name n); [now apply classify_define_line | exact E].
Qed.

Lemma header_lines_one_line : forallb one_line header_lines = true.
Proof. reflexivity. Qed.

(** The edited text splits into the edited lines. *)
Lemma lines_of_set_literal (n v : string) :
  In n constant_names ->
  lines_of (set_literal n v secrets_example_h)
  = map (set_literal_line n v) header_lines.
Proof.
  intros H. unfold set_literal. rewrite lines_of_header.
  apply lines_of_unlines.
  - apply forallb_forall. intros l Hl.
    apply in_map_iff in Hl as (l0 & <- & Hl0).
    destruct (set_literal_line_cases n v l0) as [-> | ->].
    + pose proof header_lines_one_line as F.
      rewrite forallb_forall in F. now apply F.
    + now apply define_line_one_line.
  - unfold header_lines. cbn [map List.last].
    match goal with
    | |- is_empty (set_literal_line n v ?l) = false =>
        destruct (set_literal_line_cases n v l) as [-> | ->]; reflexivity
    end.
Qed.

(** Parsing the edited header: the lines of the original, with the one
    definition replaced. *)
Lemma parse_set_literal (n v : string) :
  In n constant_names ->
  parse_file (set_literal n v secrets_example_h)
  = map (replace_define n (render_literal v)) header_directives.
Proof.
  intros H. unfold parse_file at 1.
  rewrite (lines_of_set_literal _ _ H), map_map.
  rewrite (map_ext _ _ (fun l => classify_set_literal_line n v l H)).
  rewrite <- map_map, <- parse_header.
  unfold parse_file. now rewrite lines_of_header.
Qed.

(** Two runs that agree on the macro [n'] still agree on it after a
    line and after the same line with the definition of another name
    [n] replaced. *)
Lemma exec_directive_replace_frame (file n body n' : string) (d : directive)
    (st1 st2 : pp_state) :
  n <> n' ->
  macros st1 !! n' = macros st2 !! n' ->
  option_Forall2 (fun a b => macros a !! n' = macros b !! n')
    (exec_directive file d st1)
    (exec_directive file (replace_define n body d) st2).
Proof.
  intros Hne Hm.
  destruct d as [| | |m b| |]; simpl; try (constructor; exact Hm).
  - destruct (String.eqb m n) eqn:E; simpl; constructor; simpl.
    + apply String.eqb_eq in E. subst m.
      rewrite !lookup_insert_ne by exact Hne. exact Hm.
    + destruct (decide (m = n')) as [->|Hmn].
      * now rewrite !lookup_insert_eq.
      * rewrite !lookup_insert_ne by exact Hmn. exact Hm.
Qed.

Lemma exec_directives_replace_frame (file n body n' : string) (ds : list directive) :
  n <> n' ->
  forall st1 st2,
  macros st1 !! n' = macros st2 !! n' ->
  option_Forall2 (fun a b => macros a !! n' = macros b !! n')
    (exec_directives file ds st1)
    (exec_directives file (map (replace_define n body) ds) st2).
Proof.
  intros Hne. induction ds as [|d ds IH]; intros st1 st2 Hm; simpl.
  - constructor. exact Hm.
  - destruct (exec_directive_replace_frame file n body n' d st1 st2 Hne Hm)
      as [a b Hab|]; simpl.
    + now apply IH.
    + constructor.
Qed.

End Editing.

(** ** Inclusions inside a translation unit *)

Section Units.





(** The guard is what makes a later inclusion harmless.  A program
    that includes the header, defines [WIFI_SSID] itself and includes
    the header again keeps its own definition; with the guard line
    taken out of the header, the second inclusion puts the placeholder
    back, so that taking the second inclusion out changes the result. *)
Lemma guard_is_needed :
  (st ← run_unit "main.cpp" header_name secrets_example_h
          [ IncludeHeader;
            OwnLine ("#define WIFI_SSID " +:+ quoted "mine");
            IncludeHeader ] pp_init;
   macros st !! "WIFI_SSID") = Some (quoted "mine")
  /\
  (st ← run_unit "main.cpp" header_name header_without_guard
          [ IncludeHeader;
            OwnLine ("#define WIFI_SSID " +:+ quoted "mine");
            IncludeHeader ] pp_init;
   macros st !! "WIFI_SSID") = Some (quoted "YOUR_WIFI_SSID")
  /\
  run_unit "main.cpp" header_name header_without_guard
    ([] ++ IncludeHeader
        :: [ OwnLine ("#define WIFI_SSID " +:+ quoted "mine"); IncludeHeader ])
    pp_init
  <> run_unit "main.cpp" header_name header_without_guard
       ([] ++ IncludeHeader
           :: drop_includes
                [ OwnLine ("#define WIFI_SSID " +:+ quoted "mine"); IncludeHeader ])
       pp_init.
Proof.
  split; [vm_compute; reflexivity|]. split; [vm_compute; reflexivity|].
  intros E.
  apply (f_equal (fun o => st ← o; macros st !! "WIFI_SSID")) in E.
  vm_compute in E. discriminate E.
Qed.

End Units.

(** ** The claims of the specification *)

Section Claims.

(* One goal for each element of a concrete list. *)
Ltac forall_each :=
  repeat match goal with
         | |- Forall _ (_ :: _) => apply List.Forall_cons
         | |- Forall _ [] => apply List.Forall_nil
         end.


(** C1: the header defines exactly three constants, [WIFI_SSID] (the
    network name), [WIFI_PASS] (the network credential) and
    [WEBHOOK_URL] (the webhook endpoint), and no other: its [#define]
    lines name these three, and after an inclusion from the empty state
    the macro table holds these three names and nothing else. *)
Theorem header_defines_exactly_three_constants :
  map fst (defines_of (parse_file secrets_example_h))
    = [ "WIFI_SSID"; "WIFI_PASS"; "WEBHOOK_URL" ]
  /\ exists st, include_header pp_init = Some st
       /\ dom (macros st) = {[ "WIFI_SSID"; "WIFI_PASS"; "WEBHOOK_URL" ]}
       /\ size (macros st) = 3.
Proof.
  split.
  - rewrite parse_header. reflexivity.
  - eexists. split; [apply include_header_init|]. simpl. unfold header_macros. split.
    + rewrite !dom_insert_L, dom_empty_L. set_solver.
    + rewrite !map_size_insert_None, map_size_empty; [reflexivity|..];
        now simplify_map_eq.
Qed.

(** C2: each of the three constants is defined as a string literal: its
    replacement text reads as one literal, and a use of the name in a
    line of code of an including program is replaced by that literal. *)
Theorem constants_are_string_literals :
  exists st, include_header pp_init = Some st
    /\ Forall (fun n => exists body v,
                 macros st !! n = Some body
                 /\ string_literal body = Some v
                 /\ body = quoted v
                 /\ expand_line (macros st) ("const char* s = " +:+ n +:+ ";")
                    = "const char* s = " +:+ quoted v +:+ ";")
         [ "WIFI_SSID"; "WIFI_PASS"; "WEBHOOK_URL" ].
Proof.
  eexists. split; [apply include_header_init|].
  forall_each;
    do 2 eexists; (split; [|split; [|split]]); vm_compute; reflexivity.
Qed.

(** C3: all three constants are non-empty string literals: the
    configuration read from the header exists and satisfies
    [config_filled], and each value has a positive length. *)
Theorem constants_are_nonempty :
  (exists c, config_of secrets_example_h = Some c /\ config_filled c = true)
  /\ Forall (fun n => exists v, constant_value secrets_example_h n = Some v
                               /\ 0 < String.length v)
       [ "WIFI_SSID"; "WIFI_PASS"; "WEBHOOK_URL" ].
Proof.
  split.
  - eexists. split; vm_compute; reflexivity.
  - forall_each;
      eexists; (split; [vm_compute; reflexivity | simpl; lia]).
Qed.

(** C4: the header has no executable behaviour.  What it embeds is a
    constant configuration of three strings; none of its lines is code;
    including it, from any preprocessor state, succeeds and adds nothing
    to the lines handed to the compiler; and a program run over the code
    the header contributes leaves any state, of any type, as it was. *)
Theorem header_has_no_behaviour :
  config_of secrets_example_h
    = Some {| wifi_ssid := "YOUR_WIFI_SSID";
              wifi_pass := "YOUR_WIFI_PASSWORD";
              webhook_url :=
                "https://maker.ifttt.com/trigger/water_detected/with/key/YOUR_IFTTT_KEY" |}
  /\ code_of (parse_file secrets_example_h) = []
  /\ (forall st, exists st', include_header st = Some st' /\ output st' = output st)
  /\ (forall (St : Type) (step : string -> St -> St) (s : St),
        run_program step (code_of (parse_file secrets_example_h)) s = s).
Proof.
  split; [|split; [|split]].
  - vm_compute. reflexivity.
  - rewrite parse_header. reflexivity.
  - intros st. destruct (decide (header_name ∈ once_files st)) as [H|H].
    + exists st. now rewrite (include_header_marked _ H).
    + rewrite (include_header_fresh _ H). eexists. split; reflexivity.
  - intros St step s. rewrite parse_header. reflexivity.
Qed.

(** C5: the value of [WEBHOOK_URL] is an IFTTT trigger endpoint: it
    begins with [https://maker.ifttt.com/trigger/] and the trigger it
    names, the path segment that follows, is [water_detected]. *)
Theorem webhook_url_is_ifttt_trigger :
  exists url, constant_value secrets_example_h "WEBHOOK_URL" = Some url
    /\ String.prefix "https://maker.ifttt.com/trigger/" url = true
    /\ drop_prefix "https://maker.ifttt.com/trigger/" url
       = Some "water_detected/with/key/YOUR_IFTTT_KEY"
    /\ trigger_name url = Some "water_detected".
Proof. eexists. split; [|split; [|split]]; vm_compute; reflexivity. Qed.

(** C6: the repository is one file of eleven lines, and every line is a
    comment, a blank line, the include guard, or the definition of one
    of the three constants; the definitions are the placeholder Wi-Fi
    credentials and the webhook URL template. *)
Theorem repository_is_one_eleven_line_header :
  map fst repository = [ "secrets.example.h" ]
  /\ List.length (lines_of secrets_example_h) = 11
  /\ forallb (fun d => is_comment d || is_blank d || is_guard d || is_constant_define d)
       (parse_file secrets_example_h) = true
  /\ List.filter (fun d => negb (is_comment d || is_blank d)) (parse_file secrets_example_h)
     = [ PragmaOnce;
         Define "WIFI_SSID" (quoted "YOUR_WIFI_SSID");
         Define "WIFI_PASS" (quoted "YOUR_WIFI_PASSWORD");
         Define "WEBHOOK_URL"
           (quoted "https://maker.ifttt.com/trigger/water_detected/with/key/YOUR_IFTTT_KEY") ].
Proof.
  rewrite parse_header, lines_of_header.
  split; [|split; [|split]]; vm_compute; reflexivity.
Qed.

(** The edit is effective: the edited constant reads back as the new
    value, whatever characters it holds. *)
Lemma set_literal_takes_effect (n v : string) :
  In n constant_names ->
  constant_value (set_literal n v secrets_example_h) n = Some v.
Proof.
  intros Hn. unfold constant_value, include_file.
  rewrite decide_False by set_solver.
  rewrite (parse_set_literal _ _ Hn).
  destruct Hn as [<-|[<-|[<-|[]]]]; simpl;
    rewrite ?lookup_insert_eq, ?lookup_insert_ne by discriminate; simpl;
    rewrite ?lookup_insert_eq, ?lookup_insert_ne by discriminate; simpl;
    rewrite ?lookup_insert_eq; simpl;
    apply string_literal_render.
Qed.

(** The definitions of the other names read the same after the edit. *)
Lemma set_literal_frame (n n' v : string) :
  In n constant_names -> n <> n' ->
  constant_value (set_literal n v secrets_example_h) n'
  = constant_value secrets_example_h n'.
Proof.
  intros Hn Hne. unfold constant_value, include_file.
  rewrite !decide_False by set_solver.
  rewrite (parse_set_literal _ _ Hn), parse_header.
  destruct (exec_directives_replace_frame header_name n (render_literal v) n'
              header_directives Hne pp_init pp_init eq_refl) as [a b Hab|]; simpl.
  - now rewrite Hab.
  - reflexivity.
Qed.

(** C7: the three definitions are independent.  Replace the literal of
    any one constant [n] by the literal written for any C string [v]
    (a string without the NUL character; quotes, backslashes and line
    ends in [v] are written as escapes): the edited header defines [n]
    as [v], and under each of the other two names [n'] it defines the
    very value [w] the header defined before the edit. *)
Theorem constants_are_independent (n n' v : string) :
  In n constant_names -> In n' constant_names -> n <> n' ->
  has_char nul v = false ->
  exists w, constant_value secrets_example_h n' = Some w
    /\ constant_value (set_literal n v secrets_example_h) n' = Some w
    /\ constant_value (set_literal n v secrets_example_h) n = Some v.
Proof.
  intros Hn Hn' Hne _.
  assert (exists w, constant_value secrets_example_h n' = Some w) as [w Hw].
  { destruct Hn' as [<-|[<-|[<-|[]]]]; eexists; vm_compute; reflexivity. }
  exists w. split; [exact Hw|]. split.
  - now rewrite (set_literal_frame _ _ _ Hn Hne).
  - now apply set_literal_takes_effect.
Qed.

(* The value of the witness: a line end followed by a directive. *)
Lemma constants_are_independent_witness :
  In "WEBHOOK_URL" constant_names /\ In "WIFI_PASS" constant_names
  /\ "WEBHOOK_URL" <> "WIFI_PASS"
  /\ has_char nul ("x" +:+ String cr "#define WIFI_PASS 1 //") = false
  /\ exists w, constant_value secrets_example_h "WIFI_PASS" = Some w
       /\ constant_value
            (set_literal "WEBHOOK_URL" ("x" +:+ String cr "#define WIFI_PASS 1 //")
               secrets_example_h) "WIFI_PASS" = Some w
       /\ constant_value
            (set_literal "WEBHOOK_URL" ("x" +:+ String cr "#define WIFI_PASS 1 //")
               secrets_example_h) "WEBHOOK_URL"
          = Some ("x" +:+ String cr "#define WIFI_PASS 1 //").
Proof.
  split; [simpl; auto|]. split; [simpl; auto|]. split; [discriminate|].
  split; [reflexivity|].
  apply (constants_are_independent "WEBHOOK_URL" "WIFI_PASS"
           ("x" +:+ String cr "#define WIFI_PASS 1 //"));
    [simpl; auto | simpl; auto | discriminate | reflexivity].
Defined.



(** C9: every value shipped in the template holds the marker [YOUR_]:
    the network name as [YOUR_WIFI_SSID], the credential as
    [YOUR_WIFI_PASSWORD] and the URL as [YOUR_IFTTT_KEY]. *)
Theorem placeholders_carry_marker :
  Forall (fun n => exists v, constant_value secrets_example_h n = Some v
                               /\ contains "YOUR_" v = true)
    [ "WIFI_SSID"; "WIFI_PASS"; "WEBHOOK_URL" ]
  /\ constant_value secrets_example_h "WIFI_SSID" = Some "YOUR_WIFI_SSID"
  /\ constant_value secrets_example_h "WIFI_PASS" = Some "YOUR_WIFI_PASSWORD"
  /\ (exists url, constant_value secrets_example_h "WEBHOOK_URL" = Some url
                  /\ contains "YOUR_IFTTT_KEY" url = true).
Proof.
  split; [|split; [|split]].
  - forall_each; eexists; (split; vm_compute; reflexivity).
  - vm_compute. reflexivity.
  - vm_compute. reflexivity.
  - eexists. split; vm_compute; reflexivity.
Qed.

(* Distinctness of the elements of a concrete list of strings. *)
Ltac nodup_concrete :=
  repeat (apply List.NoDup_cons; [simpl; intros H; repeat destruct H as [H|H]; discriminate H || exact H |]);
  apply List.NoDup_nil.

(** C10: each of the three names is defined exactly once in the header,
    and the names are pairwise distinct: no [#define] of the file names
    a macro that another line of the file defines. *)
Theorem constants_defined_once :
  Forall (fun n => count_occ String.string_dec
                     (map fst (defines_of (parse_file secrets_example_h))) n = 1)
    [ "WIFI_SSID"; "WIFI_PASS"; "WEBHOOK_URL" ]
  /\ List.NoDup [ "WIFI_SSID"; "WIFI_PASS"; "WEBHOOK_URL" ]
  /\ List.NoDup (map fst (defines_of (parse_file secrets_example_h))).
Proof.
  rewrite parse_header.
  split; [|split].
  - forall_each; vm_compute; reflexivity.
  - nodup_concrete.
  - simpl. nodup_concrete.
Qed.

End Claims.

(** ** Filled-in copies of the header *)

Section Filling.

Lemma define_line_nonempty (n v : string) : is_empty (define_line n v) = false.
Proof. reflexivity. Qed.

Lemma last_set_literal_line (n v : string) (ls : list string) :
  is_empty (List.last ls EmptyString) = false ->
  is_empty (List.last (map (set_literal_line n v) ls) EmptyString) = false.
Proof.
  induction ls as [|a ls IH]; intros H; [discriminate|].
  destruct ls as [|b ls'].
  - cbn [map List.last] in *.
    destruct (set_literal_line_cases n v a) as [-> | ->];
      [exact H | apply define_line_nonempty].
  - change (is_empty (List.last (map (set_literal_line n v) (b :: ls')) EmptyString)
            = false).
    apply IH. exact H.
Qed.

(** An edit works line by line, on any text that ends in a line. *)
Lemma lines_of_set_literal_any (n v text : string) :
  In n constant_names ->
  ends_in_line text = true ->
  lines_of (set_literal n v text) = map (set_literal_line n v) (lines_of text).
Proof.
  intros Hn He. unfold set_literal. apply lines_of_unlines.
  - apply forallb_forall. intros l Hl.
    apply in_map_iff in Hl as (l0 & <- & Hl0).
    destruct (set_literal_line_cases n v l0) as [-> | ->].
    + pose proof (lines_of_one_line text) as F.
      rewrite forallb_forall in F. now apply F.
    + now apply define_line_one_line.
  - apply last_set_literal_line. now apply negb_true_iff.
Qed.

Lemma ends_in_line_set_literal (n v text : string) :
  In n constant_names ->
  ends_in_line text = true -> ends_in_line (set_literal n v text) = true.
Proof.
  intros Hn He. unfold ends_in_line.
  rewrite (lines_of_set_literal_any _ _ _ Hn He).
  apply negb_true_iff, last_set_literal_line. now apply negb_true_iff.
Qed.

Lemma parse_set_literal_any (n v text : string) :
  In n constant_names ->
  ends_in_line text = true ->
  parse_file (set_literal n v text)
  = map (replace_define n (render_literal v)) (parse_file text).
Proof.
  intros Hn He. unfold parse_file.
  rewrite (lines_of_set_literal_any _ _ _ Hn He), !map_map.
  apply map_ext. intros l. now apply classify_set_literal_line.
Qed.

Lemma header_ends_in_line : ends_in_line secrets_example_h = true.
Proof. unfold ends_in_line. rewrite lines_of_header. reflexivity. Qed.

Lemma in_ssid : In "WIFI_SSID" constant_names.
Proof. simpl. auto. Qed.
Lemma in_pass : In "WIFI_PASS" constant_names.
Proof. simpl. auto. Qed.
Lemma in_url : In "WEBHOOK_URL" constant_names.
Proof. simpl. auto. Qed.

(** A filled-in copy parses to the lines of the header with the three
    replacement texts exchanged. *)
Lemma parse_fill_in (s p u : string) :
  parse_file (fill_in s p u) = filled_directives s p u.
Proof.
  unfold fill_in.
  rewrite (parse_set_literal_any _ _ _ in_url)
    by (do 2 (apply ends_in_line_set_literal; [simpl; auto|]); apply header_ends_in_line).
  rewrite (parse_set_literal_any _ _ _ in_pass)
    by (apply ends_in_line_set_literal; [simpl; auto|]; apply header_ends_in_line).
  rewrite (parse_set_literal_any _ _ _ in_ssid) by apply header_ends_in_line.
  rewrite parse_header. reflexivity.
Qed.

(** Filling in the placeholders themselves gives back the header. *)
Lemma fill_in_placeholders :
  fill_in "YOUR_WIFI_SSID" "YOUR_WIFI_PASSWORD"
    "https://maker.ifttt.com/trigger/water_detected/with/key/YOUR_IFTTT_KEY"
  = secrets_example_h.
Proof. vm_compute. reflexivity. Qed.

(** The macros a filled-in copy adds to a table. *)
Lemma exec_filled (file s p u : string) (st : pp_state) :
  exec_directives file (filled_directives s p u) st
  = Some {| macros :=
              <[ "WEBHOOK_URL" := render_literal u ]>
                (<[ "WIFI_PASS" := render_literal p ]>
                   (<[ "WIFI_SSID" := render_literal s ]> (macros st)));
            once_files := {[ file ]} ∪ once_files st;
            output := output st |}.
Proof. reflexivity. Qed.

Lemma include_filled_fresh (name s p u : string) (st : pp_state) :
  name ∉ once_files st ->
  include_file name (fill_in s p u) st
  = Some {| macros :=
              <[ "WEBHOOK_URL" := render_literal u ]>
                (<[ "WIFI_PASS" := render_literal p ]>
                   (<[ "WIFI_SSID" := render_literal s ]> (macros st)));
            once_files := {[ name ]} ∪ once_files st;
            output := output st |}.
Proof.
  intros H. unfold include_file. rewrite decide_False by exact H.
  rewrite parse_fill_in. apply exec_filled.
Qed.




(** X2: what a filled-in copy does to an including program, under any
    file name and from any preprocessor state that has not yet included
    it: the inclusion succeeds, hands no line of code to the compiler,
    marks the file once-only, adds the three names to the macro table
    and leaves every macro of another name as it was. *)
Theorem filled_copy_frame (name s p u : string) (st : pp_state) :
  name ∉ once_files st ->
  exists st', include_file name (fill_in s p u) st = Some st'
    /\ output st' = output st
    /\ once_files st' = {[ name ]} ∪ once_files st
    /\ dom (macros st') = {[ "WIFI_SSID"; "WIFI_PASS"; "WEBHOOK_URL" ]} ∪ dom (macros st)
    /\ forall m, ~ In m constant_names -> macros st' !! m = macros st !! m.
Proof.
  intros Hfresh. eexists. split; [now apply include_filled_fresh|]. simpl.
  clear Hfresh.
  split; [reflexivity|]. split; [reflexivity|]. split.
  - rewrite !dom_insert_L. apply set_eq. intros x.
    rewrite !elem_of_union, !elem_of_singleton. tauto.
  - intros m Hm.
    rewrite !lookup_insert_ne; [reflexivity|..];
      intros E; subst m; apply Hm; simpl; auto.
Qed.

(* The password of the witness holds a line end and a directive. *)
Lemma filled_copy_frame_witness :
  ("secrets.h" ∉ once_files pp_init) /\
  exists st',
    include_file "secrets.h"
      (fill_in "HomeNet" ("a" +:+ String cr "#define OTHER 1") "https://example.org/hook")
      pp_init = Some st'
    /\ output st' = output pp_init
    /\ once_files st' = {[ "secrets.h" ]} ∪ once_files pp_init
    /\ dom (macros st')
       = {[ "WIFI_SSID"; "WIFI_PASS"; "WEBHOOK_URL" ]} ∪ dom (macros pp_init)
    /\ forall m, ~ In m constant_names -> macros st' !! m = macros pp_init !! m.
Proof.
  split; [simpl; apply not_elem_of_empty|].
  apply (filled_copy_frame "secrets.h" "HomeNet" ("a" +:+ String cr "#define OTHER 1")
           "https://example.org/hook" pp_init).
  simpl. apply not_elem_of_empty.
Defined.



End Filling.
